(** * MCP Adapter: a shallow embedding of the generated adapters and of the
    CLI pipeline.

    The two generated adapters ([output/math-api-mcp/server.py] and
    [output/petstore-mcp/server.py]) are modelled stub by stub: every tool
    stub is a function from keyword arguments to the [_request] call it makes,
    [_request] is a computation over an explicit HTTP client that can return
    a response or raise, and module-level configuration is read from an
    explicit environment.  The CLI ([mcp_adapter/cli.py]) is modelled as the
    trace of calls it makes.  Library behaviour that the adapters only forward
    ([json.dumps], [resp.json()], [str(e)]) is a type class, so every theorem
    holds for every implementation of it. *)

From Stdlib Require Import ZArith QArith Ascii.
From stdpp Require Import base list strings pretty sets sorting.

Set Warnings "-register-all".
Local Open Scope Z_scope.

(* ------------------------------------------------------------------ *)
(** ** Python values, JSON values, exceptions *)

(** The Python values the tool stubs receive and forward: [int], [float],
    [str] and [None].  A [float] is kept as its rational value, the stubs only
    forward it. *)
Inductive pyval :=
  | PyNone
  | PyInt (z : Z)
  | PyFloat (q : Q)
  | PyStr (s : string).

(** Keyword arguments of a tool call, in the order they are given. *)
Definition kwargs := list (string * pyval).

(** A JSON document, as produced by [resp.json()] and consumed by
    [json.dumps]. *)
Inductive json :=
  | JNull
  | JBool (b : bool)
  | JInt (z : Z)
  | JNum (q : Q)
  | JStr (s : string)
  | JArr (l : list json)
  | JObj (fields : list (string * json)).

(** The exceptions that can reach [_request]: [httpx.HTTPStatusError]
    (raised by [raise_for_status]), any other [Exception] raised by the
    client (connection errors, timeouts, ...), and [asyncio.CancelledError],
    which is a [BaseException] and not an [Exception]. *)
Inductive exn :=
  | HTTPStatusError (status : Z)
  | OtherException (msg : string)
  | CancelledError.

(** [isinstance(e, Exception)]. *)
Definition is_Exception (e : exn) : bool :=
  match e with
  | CancelledError => false
  | _ => true
  end.

(** A computation that returns a value or raises. *)
Inductive result (A : Type) :=
  | Ok (a : A)
  | Raise (e : exn).
Arguments Ok {A} a.
Arguments Raise {A} e.

(** The library functions the adapters call and only forward. *)
Class PyLib := {
  (** [json.dumps(d, indent=i)]; [None] is the default compact layout. *)
  json_dumps : option nat -> json -> string;
  (** [resp.json()]: [None] when the body is not valid JSON (it raises). *)
  resp_json : string -> option json;
  (** [str(e)] *)
  str_exn : exn -> string;
  (** [str(x)] for a [float] *)
  float_repr : Q -> string
}.

Section PyLibSection.
Context `{PyLib}.

(** [str(v)], used by the f-strings that build request paths. *)
Definition py_str (v : pyval) : string :=
  match v with
  | PyNone => "None"
  | PyInt z => pretty z
  | PyFloat q => float_repr q
  | PyStr s => s
  end.

End PyLibSection.

(* ------------------------------------------------------------------ *)
(** ** Environment, configuration and headers *)

(** Lookup in a Python [dict] kept as an association list in insertion
    order (keys are distinct in a [dict], so the first match is the entry). *)
Fixpoint assoc_get {A} (l : list (string * A)) (k : string) : option A :=
  match l with
  | [] => None
  | (k', v) :: l' => if decide (k' = k) then Some v else assoc_get l' k
  end.

(** The process environment, [os.environ]. *)
Definition environ := list (string * string).

(** [os.getenv(k, d)] *)
Definition getenv (env : environ) (k d : string) : string :=
  default d (assoc_get env k).

(** The module-level constants of an adapter, evaluated once when the
    adapter module is imported. *)
Record config := {
  BASE_URL : string;
  API_KEY : string
}.

(** An HTTP response as the adapters observe it. *)
Record response := {
  status_code : Z;
  text : string
}.

(** [httpx.Response.is_success]: [raise_for_status] raises exactly when this
    is false. *)
Definition is_success (r : response) : bool :=
  bool_decide (200 <= status_code r < 300).

(** The request [client.request(method, url, headers=..., params=...,
    json=...)] puts on the wire: [params=None] and [params={}] both send no
    query string, [json=None] sends no body. *)
Record request := {
  req_method : string;
  req_url : string;
  req_headers : list (string * string);
  req_query : list (string * pyval);
  req_json : option (list (string * pyval))
}.

(** The HTTP client: the outcome of sending one request. *)
Definition client := request -> result response.

(** A call of [_request(method, path, params=..., body=...)] as a stub makes
    it. *)
Record call := {
  c_method : string;
  c_path : string;
  c_params : option (list (string * pyval));
  c_body : option (list (string * pyval))
}.

(** [json=body if body else None] *)
Definition json_arg (body : option (list (string * pyval)))
    : option (list (string * pyval)) :=
  match body with
  | Some (_ :: _) => body
  | _ => None
  end.

(** [params=params]: [None] and [{}] both mean no query string. *)
Definition query_arg (params : option (list (string * pyval)))
    : list (string * pyval) :=
  default [] params.

(** [x is None] *)
Definition is_none (v : pyval) : bool :=
  match v with PyNone => true | _ => false end.

(** A required keyword argument: a missing one makes the call a
    [TypeError], modelled as [None]. *)
Definition kw_get (kw : kwargs) (n : string) : option pyval := assoc_get kw n.

(** An optional keyword argument, defaulting to [None]. *)
Definition kw_opt (kw : kwargs) (n : string) : pyval := default PyNone (kw_get kw n).

(** [if v is not None: d[n] = v] *)
Definition opt_field (n : string) (v : pyval) : list (string * pyval) :=
  if is_none v then [] else [(n, v)].

(** A tool as [@tool(description=...)] registers it: its name (the
    function's name), its declared description and its stub. *)
Record tool := {
  tool_name : string;
  tool_description : string;
  tool_stub : kwargs -> option call
}.

Section Request.
Context `{PyLib}.

(** The request [_request] sends for a call, given the adapter's headers. *)
Definition wire_request (hdrs : list (string * string)) (cfg : config)
    (c : call) : request :=
  {| req_method := c_method c;
     req_url := BASE_URL cfg +:+ c_path c;
     req_headers := hdrs;
     req_query := query_arg (c_params c);
     req_json := json_arg (c_body c) |}.

(** [try: return json.dumps(resp.json(), indent=2)
     except Exception: return resp.text] *)
Definition format_body (resp : response) : string :=
  match resp_json (text resp) with
  | Some d => json_dumps (Some 2%nat) d
  | None => text resp
  end.

End Request.

(* ------------------------------------------------------------------ *)
(** ** The generated math adapter ([output/math-api-mcp/server.py]) *)

Module Math.
Section Adapter.
Context `{PyLib}.

Definition server_name : string := "math-api".

(** [BASE_URL = os.getenv("BASIC_MATH_API_BASE_URL", "http://127.0.0.1:8001")]
    and [API_KEY = os.getenv("BASIC_MATH_API_API_KEY", "")]. *)
Definition load (env : environ) : config :=
  {| BASE_URL := getenv env "BASIC_MATH_API_BASE_URL" "http://127.0.0.1:8001";
     API_KEY := getenv env "BASIC_MATH_API_API_KEY" "" |}.

Definition _headers (cfg : config) : list (string * string) :=
  [("Content-Type", "application/json"); ("Accept", "application/json")] ++
  (if bool_decide (API_KEY cfg = "") then []
   else [("Authorization", "Bearer " +:+ API_KEY cfg)]).

(** [_request]: [raise_for_status] is outside any [try], so a non-2xx
    status raises [HTTPStatusError] out of the call.  Nothing here is inside
    a [try], so an exception raised while creating the client
    ([async with httpx.AsyncClient(...)]) propagates exactly like one raised
    by the request: [send] stands for both. *)
Definition _request (cfg : config) (send : client) (c : call) : result string :=
  match send (wire_request (_headers cfg) cfg c) with
  | Raise e => Raise e
  | Ok resp =>
      if is_success resp then Ok (format_body resp)
      else Raise (HTTPStatusError (status_code resp))
  end.

Definition add_numbers (kw : kwargs) : option call :=
  a ← kw_get kw "a"; b ← kw_get kw "b";
  Some {| c_method := "POST"; c_path := "/add"; c_params := None;
          c_body := Some [("a", a); ("b", b)] |}.

Definition divide_numbers (kw : kwargs) : option call :=
  a ← kw_get kw "a"; b ← kw_get kw "b";
  Some {| c_method := "POST"; c_path := "/divide"; c_params := None;
          c_body := Some [("a", a); ("b", b)] |}.

Definition health_check (kw : kwargs) : option call :=
  Some {| c_method := "GET"; c_path := "/health"; c_params := None;
          c_body := None |}.

Definition multiply_numbers (kw : kwargs) : option call :=
  a ← kw_get kw "a"; b ← kw_get kw "b";
  Some {| c_method := "POST"; c_path := "/multiply"; c_params := None;
          c_body := Some [("a", a); ("b", b)] |}.

Definition subtract_numbers (kw : kwargs) : option call :=
  a ← kw_get kw "a"; b ← kw_get kw "b";
  Some {| c_method := "POST"; c_path := "/subtract"; c_params := None;
          c_body := Some [("a", a); ("b", b)] |}.

End Adapter.

(** [server.collect(add_numbers, divide_numbers, health_check,
    multiply_numbers, subtract_numbers)] with their [@tool] descriptions. *)
Definition tools : list tool :=
  [ {| tool_name := "add_numbers";
       tool_description := "Calculates the sum of two numbers. [WRITES DATA]";
       tool_stub := add_numbers |};
    {| tool_name := "divide_numbers";
       tool_description := "Calculates the quotient of two numbers.";
       tool_stub := divide_numbers |};
    {| tool_name := "health_check";
       tool_description := "Checks the health status of the API.";
       tool_stub := health_check |};
    {| tool_name := "multiply_numbers";
       tool_description := "Calculates the product of two numbers.";
       tool_stub := multiply_numbers |};
    {| tool_name := "subtract_numbers";
       tool_description := "Calculates the difference between two numbers.";
       tool_stub := subtract_numbers |} ].

(** The tools the generated [test_server.py] dry-runs in
    [test_read_tools_dry_run] ("Dry-run read-only tools"). *)
Definition test_read_tools : list string :=
  ["divide_numbers"; "health_check"; "multiply_numbers"; "subtract_numbers"].

End Math.

(* ------------------------------------------------------------------ *)
(** ** The generated petstore adapter ([output/petstore-mcp/server.py]) *)

Module Petstore.
Section Adapter.
Context `{PyLib}.

Definition server_name : string := "petstore".

(** [BASE_URL = os.getenv("PETSTORE_API_BASE_URL",
    "https://petstore.example.com/api/v1")] and
    [API_KEY = os.getenv("PETSTORE_API_API_KEY", "")]. *)
Definition load (env : environ) : config :=
  {| BASE_URL := getenv env "PETSTORE_API_BASE_URL"
                   "https://petstore.example.com/api/v1";
     API_KEY := getenv env "PETSTORE_API_API_KEY" "" |}.

Definition _headers (cfg : config) : list (string * string) :=
  [("Content-Type", "application/json"); ("Accept", "application/json")] ++
  (if bool_decide (API_KEY cfg = "") then [] else [("X-API-Key", API_KEY cfg)]).

(** The two [except] clauses of [_request]:
    [except httpx.HTTPStatusError as e:
       return json.dumps({"error": str(e), "status": e.response.status_code})]
    [except Exception as e: return json.dumps({"error": str(e)})];
    anything else propagates. *)
Definition handle (e : exn) : result string :=
  match e with
  | HTTPStatusError code =>
      Ok (json_dumps None (JObj [("error", JStr (str_exn e)); ("status", JInt code)]))
  | _ =>
      if is_Exception e then Ok (json_dumps None (JObj [("error", JStr (str_exn e))]))
      else Raise e
  end.

(** [_request]: [async with httpx.AsyncClient(timeout=30.0) as client:]
    comes before the [try]; the request, [raise_for_status] and the
    decoding are inside it.  [init] is the exception creating and entering
    the client raises, if any (for instance the [ValueError] for an
    [HTTPS_PROXY] URL of an unsupported scheme): it is outside the [try] and
    propagates.  Closing the client when the block is left is not
    modelled. *)
Definition _request (cfg : config) (send : client) (c : call) (init : option exn)
    : result string :=
  match init with
  | Some e => Raise e
  | None =>
      match send (wire_request (_headers cfg) cfg c) with
      | Raise e => handle e
      | Ok resp =>
          if is_success resp then Ok (format_body resp)
          else handle (HTTPStatusError (status_code resp))
      end
  end.

Definition adoptpet (kw : kwargs) : option call :=
  petId ← kw_get kw "petId"; owner_id ← kw_get kw "owner_id";
  let notes := kw_opt kw "notes" in
  Some {| c_method := "POST"; c_path := "/pets/" +:+ py_str petId +:+ "/adopt";
          c_params := None;
          c_body := Some ([("owner_id", owner_id)] ++ opt_field "notes" notes) |}.

Definition createowner (kw : kwargs) : option call :=
  name ← kw_get kw "name"; email ← kw_get kw "email";
  let id := kw_opt kw "id" in let phone := kw_opt kw "phone" in
  Some {| c_method := "POST"; c_path := "/owners"; c_params := None;
          c_body := Some ([("name", name); ("email", email)] ++
                          opt_field "id" id ++ opt_field "phone" phone) |}.

Definition createpet (kw : kwargs) : option call :=
  name ← kw_get kw "name"; species ← kw_get kw "species";
  let id := kw_opt kw "id" in let breed := kw_opt kw "breed" in
  let age := kw_opt kw "age" in let status := kw_opt kw "status" in
  Some {| c_method := "POST"; c_path := "/pets"; c_params := None;
          c_body := Some ([("name", name); ("species", species)] ++
                          opt_field "id" id ++ opt_field "breed" breed ++
                          opt_field "age" age ++ opt_field "status" status) |}.

Definition deleteowner (kw : kwargs) : option call :=
  ownerId ← kw_get kw "ownerId";
  Some {| c_method := "DELETE"; c_path := "/owners/" +:+ py_str ownerId;
          c_params := None; c_body := None |}.

Definition deletepet (kw : kwargs) : option call :=
  petId ← kw_get kw "petId";
  Some {| c_method := "DELETE"; c_path := "/pets/" +:+ py_str petId;
          c_params := None; c_body := None |}.

(** [search_owners]: with an [ownerId] it fetches that owner and returns
    early; otherwise it lists owners with [limit]/[offset]. *)
Definition search_owners (kw : kwargs) : option call :=
  let ownerId := kw_opt kw "ownerId" in
  let limit := kw_opt kw "limit" in let offset := kw_opt kw "offset" in
  if negb (is_none ownerId) then
    Some {| c_method := "GET"; c_path := "/owners/" +:+ py_str ownerId;
            c_params := None; c_body := None |}
  else
    Some {| c_method := "GET"; c_path := "/owners";
            c_params := Some (opt_field "limit" limit ++ opt_field "offset" offset);
            c_body := None |}.

(** [search_pets]: with a [petId] it fetches that pet and returns early;
    otherwise it collects the filters and calls [/pets/search] when [q] is
    given, [/pets] when it is not. *)
Definition search_pets (kw : kwargs) : option call :=
  let petId := kw_opt kw "petId" in
  let species := kw_opt kw "species" in let status := kw_opt kw "status" in
  let limit := kw_opt kw "limit" in let offset := kw_opt kw "offset" in
  let q := kw_opt kw "q" in
  if negb (is_none petId) then
    Some {| c_method := "GET"; c_path := "/pets/" +:+ py_str petId;
            c_params := None; c_body := None |}
  else
    let params := opt_field "species" species ++ opt_field "status" status ++
                  opt_field "limit" limit ++ opt_field "offset" offset in
    if negb (is_none q) then
      Some {| c_method := "GET"; c_path := "/pets/search";
              c_params := Some (params ++ [("q", q)]); c_body := None |}
    else
      Some {| c_method := "GET"; c_path := "/pets"; c_params := Some params;
              c_body := None |}.

Definition updatepet (kw : kwargs) : option call :=
  petId ← kw_get kw "petId";
  name ← kw_get kw "name"; species ← kw_get kw "species";
  let id := kw_opt kw "id" in let breed := kw_opt kw "breed" in
  let age := kw_opt kw "age" in let status := kw_opt kw "status" in
  Some {| c_method := "PUT"; c_path := "/pets/" +:+ py_str petId; c_params := None;
          c_body := Some ([("name", name); ("species", species)] ++
                          opt_field "id" id ++ opt_field "breed" breed ++
                          opt_field "age" age ++ opt_field "status" status) |}.

(** [server.collect(adoptpet, createowner, createpet, deleteowner, deletepet,
    search_owners, search_pets, updatepet)] with their [@tool]
    descriptions. *)
Definition tools : list tool :=
  [ {| tool_name := "adoptpet";
       tool_description := "Mark a pet as adopted [WRITES DATA]";
       tool_stub := adoptpet |};
    {| tool_name := "createowner";
       tool_description := "Register a new owner [WRITES DATA]";
       tool_stub := createowner |};
    {| tool_name := "createpet";
       tool_description := "Add a new pet [WRITES DATA]";
       tool_stub := createpet |};
    {| tool_name := "deleteowner";
       tool_description := "Delete an owner record [DESTRUCTIVE — may permanently delete data]";
       tool_stub := deleteowner |};
    {| tool_name := "deletepet";
       tool_description := "Delete a pet [DESTRUCTIVE — may permanently delete data]";
       tool_stub := deletepet |};
    {| tool_name := "search_owners";
       tool_description := "Search or list owners with flexible filtering.";
       tool_stub := search_owners |};
    {| tool_name := "search_pets";
       tool_description := "Search or list pets with flexible filtering.";
       tool_stub := search_pets |};
    {| tool_name := "updatepet";
       tool_description := "Update a pet [WRITES DATA]";
       tool_stub := updatepet |} ].

End Adapter.
End Petstore.

(* ------------------------------------------------------------------ *)
(** ** Safety levels and the markers the adapters carry *)

(** [models.SafetyLevel] *)
Inductive SafetyLevel := READ | WRITE | DESTRUCTIVE.

#[global] Instance SafetyLevel_eq_dec : EqDecision SafetyLevel.
Proof. solve_decision. Defined.

(** [SafetyLevel.value] *)
Definition safety_value (s : SafetyLevel) : string :=
  match s with READ => "read" | WRITE => "write" | DESTRUCTIVE => "destructive" end.

(** The order read < write < destructive. *)
Definition safety_rank (s : SafetyLevel) : nat :=
  match s with READ => 0 | WRITE => 1 | DESTRUCTIVE => 2 end.

(** The bracketed markers the generated descriptions end with. *)
Definition write_marker : string := "[WRITES DATA]".
Definition destructive_marker : string :=
  "[DESTRUCTIVE — may permanently delete data]".

(** [s.endswith(suf)] *)
Definition ends_with (s suf : string) : bool :=
  bool_decide (String.length suf ≤ String.length s)%nat &&
  bool_decide (String.substring (String.length s - String.length suf)
                 (String.length suf) s = suf).

(** The safety level a generated tool's declared description marks. *)
Definition marker_safety (desc : string) : SafetyLevel :=
  if ends_with desc destructive_marker then DESTRUCTIVE
  else if ends_with desc write_marker then WRITE
  else READ.

(** The HTTP methods a stub can issue: all [c_method]s of the calls it
    builds on the given arguments. *)
Definition issues (t : tool) (kw : kwargs) (m : string) : Prop :=
  ∃ c, tool_stub t kw = Some c ∧ c_method c = m.

(* ------------------------------------------------------------------ *)
(** ** String helpers *)

(** ASCII lower-casing ([str.lower] on ASCII text). *)
Definition ascii_lower (c : ascii) : ascii :=
  let n := nat_of_ascii c in
  if (65 <=? n)%nat && (n <=? 90)%nat then ascii_of_nat (n + 32) else c.

Fixpoint lower (s : string) : string :=
  match s with
  | EmptyString => EmptyString
  | String c s' => String (ascii_lower c) (lower s')
  end.

(** [sub in s] *)
Fixpoint contains (s sub : string) : bool :=
  String.prefix sub s ||
  match s with EmptyString => false | String _ s' => contains s' sub end.

(** [s.split(sep)] for a one-character separator. *)
Fixpoint split_go (sep : ascii) (cur : string) (s : string) : list string :=
  match s with
  | EmptyString => [String.rev cur]
  | String c s' =>
      if decide (c = sep) then String.rev cur :: split_go sep EmptyString s'
      else split_go sep (String c cur) s'
  end.
Definition split_on (sep : ascii) (s : string) : list string :=
  split_go sep EmptyString s.

(** Case-insensitive uniqueness of a list of names. *)
Definition ci_unique (names : list string) : Prop := NoDup (lower <$> names).

(* ------------------------------------------------------------------ *)
(** ** The pipeline's data model and the stages missing from the sources *)

(** Modelled from the spec: the data model of [mcp_adapter/models.py]
    (§3), which the CLI imports but which is not among the sources. *)
Inductive ParamLocation := LPath | LQuery | LHeader | LBody.

Record Param := {
  p_name : string;
  p_location : ParamLocation;
  p_json_type : string;
  p_required : bool
}.

Record Endpoint := {
  ep_method : string;
  ep_path : string;
  ep_operation_id : option string;
  ep_summary : string;
  ep_description : string;
  ep_parameters : list Param
}.

Record APISpec := {
  title : string;
  version : string;
  base_url : string;
  endpoints : list Endpoint;
  tags : list string;
  auth_schemes : list string
}.

Record ToolParam := {
  tp_name : string;
  json_type : string;
  required : bool;
  location : ParamLocation
}.

Record ToolDefinition := {
  name : string;
  description : string;
  safety : SafetyLevel;
  params : list ToolParam;
  endpoint_ref : Endpoint
}.

Record SafetyPolicy := {
  block_destructive : bool;
  max_tools : Z;
  allowlist : list string;
  denylist : list string
}.

(** Modelled from the spec: the safety classification of ToolMiner
    ([mcp_adapter/mine.py], §4.2).  DELETE is destructive; POST, PUT and
    PATCH are write, upgraded to destructive when the path or summary
    contains "delete", "remove" or "purge"; any other method is read. *)
Definition destructive_verbs : list string := ["delete"; "remove"; "purge"].

Definition classify_safety (ep : Endpoint) : SafetyLevel :=
  if decide (ep_method ep = "DELETE") then DESTRUCTIVE
  else if decide (ep_method ep ∈ ["POST"; "PUT"; "PATCH"]) then
    if existsb (fun v => contains (lower (ep_path ep)) v ||
                         contains (lower (ep_summary ep)) v) destructive_verbs
    then DESTRUCTIVE else WRITE
  else READ.

(** Modelled from the spec: the bracketed safety marker appended to the
    description when the safety is write or destructive (§4.2), with the
    marker texts of the generated adapters. *)
Definition safety_suffix (s : SafetyLevel) : string :=
  match s with
  | READ => ""
  | WRITE => " " +:+ write_marker
  | DESTRUCTIVE => " " +:+ destructive_marker
  end.

(** Modelled from the spec: description synthesis (§4.2): the summary, else
    the description, else method and path, then the safety marker. *)
Definition describe (ep : Endpoint) (s : SafetyLevel) : string :=
  (if decide (ep_summary ep ≠ "") then ep_summary ep
   else if decide (ep_description ep ≠ "") then ep_description ep
   else ep_method ep +:+ " " +:+ ep_path ep) +:+ safety_suffix s.

(** Modelled from the spec: an operation id normalised to a flat token
    (every character other than a letter, digit or underscore becomes an
    underscore). *)
Definition is_ident_char (c : ascii) : bool :=
  let n := nat_of_ascii c in
  (((48 <=? n) && (n <=? 57)) || ((65 <=? n) && (n <=? 90)) ||
   ((97 <=? n) && (n <=? 122)) || (n =? 95))%nat.

Fixpoint flat_token (s : string) : string :=
  match s with
  | EmptyString => EmptyString
  | String c s' => String (if is_ident_char c then c else "_"%char) (flat_token s')
  end.

(** A path segment that is a [{param}] placeholder. *)
Definition is_placeholder (seg : string) : bool :=
  String.prefix "{" seg.

(** Modelled from the spec: the base name of a tool: the normalised
    operation id, else the lower-cased method and the last non-parameter
    path segment. *)
Definition base_name (ep : Endpoint) : string :=
  match ep_operation_id ep with
  | Some oid => flat_token oid
  | None =>
      let segs := filter (fun s => s ≠ "" ∧ is_placeholder s = false)
                    (split_on "/" (ep_path ep)) in
      lower (ep_method ep) +:+ "_" +:+ default "root" (last segs)
  end.

(** Modelled from the spec: collisions get a numeric suffix, the first free
    one from [_2] on, compared case-insensitively with the names already
    given ([seen] holds them lower-cased). *)
Definition suffixed (base : string) (n : nat) : string := base +:+ "_" +:+ pretty n.

Fixpoint fresh_from (seen : list string) (base : string) (n fuel : nat) : string :=
  match fuel with
  | O => suffixed base n
  | S f =>
      if bool_decide (lower (suffixed base n) ∈ seen)
      then fresh_from seen base (S n) f else suffixed base n
  end.

Definition fresh_name (seen : list string) (base : string) : string :=
  if bool_decide (lower base ∈ seen) then fresh_from seen base 2 (length seen)
  else base.

(** Modelled from the spec: endpoints with an unknown method or an empty
    path are skipped. *)
Definition known_methods : list string :=
  ["GET"; "POST"; "PUT"; "PATCH"; "DELETE"; "HEAD"; "OPTIONS"].

Definition skipped (ep : Endpoint) : bool :=
  bool_decide (ep_method ep ∉ known_methods) || bool_decide (ep_path ep = "").

Definition tool_param (p : Param) : ToolParam :=
  {| tp_name := p_name p; json_type := p_json_type p; required := p_required p;
     location := p_location p |}.

Definition mk_tool (n : string) (ep : Endpoint) : ToolDefinition :=
  let s := classify_safety ep in
  {| name := n; description := describe ep s; safety := s;
     params := tool_param <$> ep_parameters ep; endpoint_ref := ep |}.

Fixpoint mine_go (seen : list string) (eps : list Endpoint) : list ToolDefinition :=
  match eps with
  | [] => []
  | ep :: eps' =>
      if skipped ep then mine_go seen eps'
      else
        let n := fresh_name seen (base_name ep) in
        mk_tool n ep :: mine_go (lower n :: seen) eps'
  end.

(** Modelled from the spec: [mine_tools] of [mcp_adapter/mine.py]. *)
Definition mine_tools (s : APISpec) : list ToolDefinition := mine_go [] (endpoints s).

(** Modelled from the spec: [apply_safety] of [mcp_adapter/safety.py]
    (§4.3): block destructive, allowlist (case-insensitive), denylist,
    truncation, in this order; truncation only when [max_tools > 0]. *)
Definition apply_safety (p : SafetyPolicy) (ts : list ToolDefinition)
    : list ToolDefinition :=
  let t1 := if block_destructive p then filter (fun t => safety t ≠ DESTRUCTIVE) ts
            else ts in
  let t2 := if decide (allowlist p = []) then t1
            else filter (fun t => lower (name t) ∈ lower <$> allowlist p) t1 in
  let t3 := filter (fun t => name t ∉ denylist p) t2 in
  if decide (0 < max_tools p) then take (Z.to_nat (max_tools p)) t3 else t3.

(** Modelled from the spec: [SafetyPolicy()], the policy [apply_safety]
    uses when it is called without one. *)
Definition default_policy : SafetyPolicy :=
  {| block_destructive := false; max_tools := 0; allowlist := []; denylist := [] |}.

(* ------------------------------------------------------------------ *)
(** ** The CLI ([mcp_adapter/cli.py]) *)

(** The collaborators the CLI calls and which are treated as black boxes:
    [ingest] (SpecNormalizer) and the optional K2 enhancer.  [ingest] is
    taken on sources it parses: its [ParseError] is not modelled. *)
Class Collaborators := {
  ingest : string -> APISpec;
  enhance_tools_with_k2 : APISpec -> list ToolDefinition -> list ToolDefinition
}.

(** What a CLI command does, in order.  Logging is not modelled. *)
Inductive event :=
  | EvIngest (source : string)
  | EvMine
  | EvEnhance
  | EvApplySafety (policy : option SafetyPolicy)
  | EvGenerate (ts : list ToolDefinition)
  | EvEcho (line : string)
  | EvExit (code : nat).

(** Truthiness of an optional command-line string ([None] and [""] are
    false). *)
Definition truthy (o : option string) : bool :=
  match o with Some s => bool_decide (s ≠ "") | None => false end.

(** [if not spec and not url: ... sys.exit(1)] then
    [source = url if url else spec]. *)
Definition source_of (spec url : option string) : option string :=
  if truthy url then url else if truthy spec then spec else None.

(** [x.split(",") if x else []] for the [--allowlist] and [--denylist]
    options. *)
Definition split_option (o : option string) : list string :=
  if truthy o then split_on "," (default "" o) else [].

Definition no_source_error : list event :=
  [EvEcho "Error: Provide either --spec (file) or --url (Swagger URL)."; EvExit 1].

(** The entries of [--json-output]. *)
Definition param_report (p : ToolParam) : json :=
  JObj [("name", JStr (tp_name p)); ("type", JStr (json_type p));
        ("required", JBool (required p))].

Definition tool_report (t : ToolDefinition) : json :=
  JObj [("name", JStr (name t)); ("description", JStr (description t));
        ("safety", JStr (safety_value (safety t)));
        ("params", JArr (param_report <$> params t))].

Definition inspect_json (s : APISpec) (ts : list ToolDefinition) : json :=
  JObj [("api", JObj [("title", JStr (title s)); ("version", JStr (version s));
                      ("base_url", JStr (base_url s));
                      ("endpoints", JInt (Z.of_nat (length (endpoints s))));
                      ("tags", JArr (JStr <$> tags s))]);
        ("tools", JArr (tool_report <$> ts))].

(** The human-readable report. *)
Definition safety_icon (s : SafetyLevel) : string :=
  match s with READ => "🟢" | WRITE => "🟡" | DESTRUCTIVE => "🔴" end.

Definition param_str (p : ToolParam) : string :=
  tp_name p +:+ ": " +:+ json_type p +:+ (if required p then "*" else "?").

Definition tool_lines (t : ToolDefinition) : list string :=
  ["  " +:+ safety_icon (safety t) +:+ " " +:+ name t +:+ "(" +:+
     String.concat ", " (param_str <$> params t) +:+ ")";
   "     " +:+ description t].

(** [', '.join(xs) or 'none'] *)
Definition join_or_none (xs : list string) : string :=
  let j := String.concat ", " xs in if decide (j = "") then "none" else j.

Definition report_header (s : APISpec) (ts : list ToolDefinition) : list string :=
  ["API: " +:+ title s +:+ " v" +:+ version s;
   "Base URL: " +:+ base_url s;
   "Endpoints: " +:+ pretty (length (endpoints s));
   "Tags: " +:+ join_or_none (tags s);
   "Auth: " +:+ join_or_none (auth_schemes s);
   "";
   "Tools (" +:+ pretty (length ts) +:+ "):";
   String.concat "" (replicate 72 "-")].

Section Cli.
Context `{PyLib} `{Collaborators}.

(** [inspect_cmd] *)
Definition inspect_cmd (spec url : option string) (json_output : bool) : list event :=
  match source_of spec url with
  | None => no_source_error
  | Some src =>
      let s := ingest src in
      let ts := apply_safety default_policy (mine_tools s) in
      [EvIngest src; EvMine; EvApplySafety None] ++
      (if json_output then [EvEcho (json_dumps (Some 2%nat) (inspect_json s ts))]
       else EvEcho <$> (report_header s ts ++ mjoin (tool_lines <$> ts)))
  end.

(** [generate_cmd], once click has converted its options ([--max-tools]
    to an [int]).  The closing instructions echoed to the user are not
    modelled. *)
Definition generate_cmd (spec url : option string) (use_k2 block_destructive : bool)
    (max_tools : Z) (allowlist denylist : option string) : list event :=
  match source_of spec url with
  | None => no_source_error
  | Some src =>
      let s := ingest src in
      let ts0 := mine_tools s in
      let ts1 := if use_k2 then enhance_tools_with_k2 s ts0 else ts0 in
      let p := {| block_destructive := block_destructive; max_tools := max_tools;
                  allowlist := split_option allowlist;
                  denylist := split_option denylist |} in
      [EvIngest src; EvMine] ++ (if use_k2 then [EvEnhance] else []) ++
      [EvApplySafety (Some p); EvGenerate (apply_safety p ts1)]
  end.

(** What click does before calling a command: [--spec] is declared
    [type=click.Path(exists=True)], so a given value naming no existing path
    ([os.stat] fails, as it does on [""]) is a usage error, exit status 2,
    and the command body never runs.  [path_exists] is the file system.  The
    usage message itself is not modelled. *)
Definition usage_error : list event := [EvExit 2].

Definition spec_path_ok (path_exists : string → bool) (spec : option string) : bool :=
  match spec with Some s => path_exists s | None => true end.

Definition click_inspect (path_exists : string → bool) (spec url : option string)
    (json_output : bool) : list event :=
  if spec_path_ok path_exists spec then inspect_cmd spec url json_output
  else usage_error.

(** For [generate], [--output] is also [required=True]: leaving it out
    ([None]) is a usage error too.  A [--max-tools] value that is not an
    integer is another usage error of click, not modelled: [max_tools] is
    the converted [int]. *)
Definition click_generate (path_exists : string → bool) (spec url output : option string)
    (use_k2 block_destructive : bool) (max_tools : Z)
    (allowlist denylist : option string) : list event :=
  if spec_path_ok path_exists spec && bool_decide (is_Some output)
  then generate_cmd spec url use_k2 block_destructive max_tools allowlist denylist
  else usage_error.

End Cli.

(** The catalog a run hands to CodeGenerator. *)
Definition generated_catalogs (evs : list event) : list (list ToolDefinition) :=
  omap (fun e => match e with EvGenerate ts => Some ts | _ => None end) evs.

(** [str.upper] on ASCII text with [-] turned into [_]: the environment
    prefix a server name would give. *)
Definition ascii_upper (c : ascii) : ascii :=
  let n := nat_of_ascii c in
  if decide (c = "-"%char) then "_"%char
  else if (97 <=? n)%nat && (n <=? 122)%nat then ascii_of_nat (n - 32) else c.

Fixpoint server_env_prefix (s : string) : string :=
  match s with
  | EmptyString => EmptyString
  | String c s' => String (ascii_upper c) (server_env_prefix s')
  end.

(** The base URL the math adapter's module docstring records
    ("Base URL: http://127.0.0.1:8001"). *)
Definition math_spec_base_url : string := "http://127.0.0.1:8001".

(* ------------------------------------------------------------------ *)
(** ** Concrete library and inputs used by the witnesses *)

(** A small implementation of the forwarded library functions. *)
Definition demo_lib : PyLib :=
  {| json_dumps := fun i _ => match i with Some _ => "{\n}" | None => "{}" end;
     resp_json := fun s => if decide (s = "{}") then Some (JObj []) else None;
     str_exn := fun _ => "error";
     float_repr := fun _ => "0.0" |}.

(** A client that answers every request with the same response. *)
Definition constant_client (r : response) : client := fun _ => Ok r.

(** The registered tool of the given name. *)
Definition find_tool (ts : list tool) (n : string) : option tool :=
  snd <$> list_find (fun t => tool_name t = n) ts.

(** The five-operation math API document of §8 as SpecNormalizer gives it:
    [POST /add], [POST /subtract], [POST /multiply], [POST /divide] (each
    with required numeric body fields [a] and [b]) and [GET /health], with
    the operation ids and summaries the generated math adapter carries. *)
Definition num_body_params : list Param :=
  [ {| p_name := "a"; p_location := LBody; p_json_type := "number"; p_required := true |};
    {| p_name := "b"; p_location := LBody; p_json_type := "number"; p_required := true |} ].

Definition math_endpoint (m p oid summary : string) (ps : list Param) : Endpoint :=
  {| ep_method := m; ep_path := p; ep_operation_id := Some oid;
     ep_summary := summary; ep_description := ""; ep_parameters := ps |}.

Definition math_doc : APISpec :=
  {| title := "Basic Math API"; version := "1.0.0";
     base_url := "http://127.0.0.1:8001";
     endpoints :=
       [ math_endpoint "POST" "/add" "add_numbers"
           "Calculates the sum of two numbers." num_body_params;
         math_endpoint "POST" "/subtract" "subtract_numbers"
           "Calculates the difference between two numbers." num_body_params;
         math_endpoint "POST" "/multiply" "multiply_numbers"
           "Calculates the product of two numbers." num_body_params;
         math_endpoint "POST" "/divide" "divide_numbers"
           "Calculates the quotient of two numbers." num_body_params;
         math_endpoint "GET" "/health" "health_check"
           "Checks the health status of the API." [] ];
     tags := []; auth_schemes := [] |}.

(* ------------------------------------------------------------------ *)
(** ** The request a stub should send, following §4.4 *)

#[global] Instance ParamLocation_eq_dec : EqDecision ParamLocation.
Proof. solve_decision. Defined.

(** A path template: literal text and [{name}] placeholders. *)
Inductive seg := Lit (s : string) | Hole (n : string).

(** An endpoint a stub was generated from: method, path template and its
    parameters with their location and required flag. *)
Record endpoint_desc := {
  d_method : string;
  d_template : list seg;
  d_params : list (string * ParamLocation * bool)
}.

Section SpecRequest.
Context `{PyLib}.

Fixpoint render_path (kw : kwargs) (tpl : list seg) : option string :=
  match tpl with
  | [] => Some ""
  | Lit s :: r => rest ← render_path kw r; Some (s +:+ rest)
  | Hole n :: r => v ← kw_get kw n; rest ← render_path kw r; Some (py_str v +:+ rest)
  end.

(** The arguments of the parameters at one location, in declaration order:
    a required one must be given, an optional one is sent when not [None]. *)
Fixpoint place (kw : kwargs) (loc : ParamLocation)
    (ps : list (string * ParamLocation * bool)) : option (list (string * pyval)) :=
  match ps with
  | [] => Some []
  | (n, l, req) :: r =>
      rest ← place kw loc r;
      if decide (l = loc) then
        if req then v ← kw_get kw n; Some ((n, v) :: rest)
        else Some (opt_field n (kw_opt kw n) ++ rest)
      else Some rest
  end.

(** Refinement side: the request §4.4 describes for an endpoint: path
    parameters substituted into the template, query parameters in the query
    string, body parameters in the JSON body (none when empty), against
    [BASE_URL] followed by the path. *)
Definition spec_request (hdrs : list (string * string)) (cfg : config)
    (d : endpoint_desc) (kw : kwargs) : option request :=
  path ← render_path kw (d_template d);
  q ← place kw LQuery (d_params d);
  b ← place kw LBody (d_params d);
  Some {| req_method := d_method d; req_url := BASE_URL cfg +:+ path;
          req_headers := hdrs; req_query := q;
          req_json := match b with [] => None | _ => Some b end |}.

End SpecRequest.

(** The endpoints the stubs were generated from, as their paths and
    argument placement show. *)
Definition binary_desc (p : string) : endpoint_desc :=
  {| d_method := "POST"; d_template := [Lit p];
     d_params := [("a", LBody, true); ("b", LBody, true)] |}.
Definition health_desc : endpoint_desc :=
  {| d_method := "GET"; d_template := [Lit "/health"]; d_params := [] |}.
Definition adopt_desc : endpoint_desc :=
  {| d_method := "POST"; d_template := [Lit "/pets/"; Hole "petId"; Lit "/adopt"];
     d_params := [("petId", LPath, true); ("owner_id", LBody, true);
                  ("notes", LBody, false)] |}.
Definition createowner_desc : endpoint_desc :=
  {| d_method := "POST"; d_template := [Lit "/owners"];
     d_params := [("name", LBody, true); ("email", LBody, true);
                  ("id", LBody, false); ("phone", LBody, false)] |}.
Definition pet_body : list (string * ParamLocation * bool) :=
  [("name", LBody, true); ("species", LBody, true); ("id", LBody, false);
   ("breed", LBody, false); ("age", LBody, false); ("status", LBody, false)].
Definition createpet_desc : endpoint_desc :=
  {| d_method := "POST"; d_template := [Lit "/pets"]; d_params := pet_body |}.
Definition updatepet_desc : endpoint_desc :=
  {| d_method := "PUT"; d_template := [Lit "/pets/"; Hole "petId"];
     d_params := ("petId", LPath, true) :: pet_body |}.
Definition by_id_desc (m prefix id : string) : endpoint_desc :=
  {| d_method := m; d_template := [Lit prefix; Hole id];
     d_params := [(id, LPath, true)] |}.
Definition list_owners_desc : endpoint_desc :=
  {| d_method := "GET"; d_template := [Lit "/owners"];
     d_params := [("limit", LQuery, false); ("offset", LQuery, false)] |}.
Definition pet_filters : list (string * ParamLocation * bool) :=
  [("species", LQuery, false); ("status", LQuery, false);
   ("limit", LQuery, false); ("offset", LQuery, false)].
Definition list_pets_desc : endpoint_desc :=
  {| d_method := "GET"; d_template := [Lit "/pets"]; d_params := pet_filters |}.
Definition search_pets_desc : endpoint_desc :=
  {| d_method := "GET"; d_template := [Lit "/pets/search"];
     d_params := pet_filters ++ [("q", LQuery, false)] |}.

(** Collaborators for concrete runs: [ingest] gives the math document and
    the enhancer is the no-op. *)
Definition math_collaborators : Collaborators :=
  {| ingest := fun _ => math_doc; enhance_tools_with_k2 := fun _ ts => ts |}.

(** An enhancer within the §6 contract (same number of tools, same
    parameters; only names and descriptions change) that gives every tool
    the same name. *)
Definition rename_all (n : string) (t : ToolDefinition) : ToolDefinition :=
  {| name := n; description := description t; safety := safety t;
     params := params t; endpoint_ref := endpoint_ref t |}.

Definition collapsing_collaborators : Collaborators :=
  {| ingest := fun _ => math_doc;
     enhance_tools_with_k2 := fun _ ts => rename_all "calculate" <$> ts |}.

(* ------------------------------------------------------------------ *)
(** ** Calling a tool with keyword arguments *)

(** The parameters of a stub, from its [def] line: the name, and whether it
    is required (it has no default). *)
Definition signature := list (string * bool).

Definition math_signatures : list (string * signature) :=
  [("add_numbers", [("a", true); ("b", true)]);
   ("divide_numbers", [("a", true); ("b", true)]);
   ("health_check", []);
   ("multiply_numbers", [("a", true); ("b", true)]);
   ("subtract_numbers", [("a", true); ("b", true)])].

Definition petstore_signatures : list (string * signature) :=
  [("adoptpet", [("petId", true); ("owner_id", true); ("notes", false)]);
   ("createowner", [("name", true); ("email", true); ("id", false); ("phone", false)]);
   ("createpet", [("name", true); ("species", true); ("id", false);
                  ("breed", false); ("age", false); ("status", false)]);
   ("deleteowner", [("ownerId", true)]);
   ("deletepet", [("petId", true)]);
   ("search_owners", [("ownerId", false); ("limit", false); ("offset", false)]);
   ("search_pets", [("petId", false); ("species", false); ("status", false);
                    ("limit", false); ("offset", false); ("q", false)]);
   ("updatepet", [("petId", true); ("name", true); ("species", true); ("id", false);
                  ("breed", false); ("age", false); ("status", false)])].

(** Calling the function of the tool [t] with keyword arguments: a keyword
    that names no parameter of the function is a [TypeError] (as is a
    missing required one, which the stub itself models). *)
Definition call_tool (sigs : list (string * signature)) (t : tool) (kw : kwargs)
    : option call :=
  sig ← assoc_get sigs (tool_name t);
  if bool_decide (Forall (fun kv : string * pyval => kv.1 ∈ sig.*1) kw)
  then tool_stub t kw else None.


(** The dict [{"read": "🟢", "write": "🟡", "destructive": "🔴"}] that
    [inspect] indexes with [t.safety.value]. *)
Definition icon_table : list (string * string) :=
  [("read", "🟢"); ("write", "🟡"); ("destructive", "🔴")].


(** [sorted(names)]: Python orders strings by code points, which on ASCII
    is [String.le]. *)
Definition py_sorted (names : list string) : list string := merge_sort String.le names.

(** The names [test_list_tools] of the math adapter's generated test
    expects, and the number the petstore test expects. *)
Definition math_test_expected : list string :=
  ["add_numbers"; "divide_numbers"; "health_check"; "multiply_numbers";
   "subtract_numbers"].
Definition petstore_test_expected_count : nat := 8.

(** The stubs that put an id argument into the request path, with the
    parameter they take it from. *)
Definition id_stubs `{PyLib} : list ((kwargs -> option call) * string) :=
  [(Petstore.adoptpet, "petId"); (Petstore.deleteowner, "ownerId");
   (Petstore.deletepet, "petId"); (Petstore.search_owners, "ownerId");
   (Petstore.search_pets, "petId"); (Petstore.updatepet, "petId")].

(** The HTTP method of each stub, from its [_request] calls. *)
Definition stub_methods : list (string * string) :=
  [("add_numbers", "POST"); ("divide_numbers", "POST"); ("health_check", "GET");
   ("multiply_numbers", "POST"); ("subtract_numbers", "POST");
   ("adoptpet", "POST"); ("createowner", "POST"); ("createpet", "POST");
   ("deleteowner", "DELETE"); ("deletepet", "DELETE"); ("search_owners", "GET");
   ("search_pets", "GET"); ("updatepet", "PUT")].

(* ================================================================== *)
(** * Theorems *)

(** Claim C9: every request either adapter sends carries
    [Content-Type: application/json] and [Accept: application/json], and a
    credential header ([Authorization: Bearer <key>] for the math adapter,
    [X-API-Key: <key>] for the petstore adapter) exactly when the API-key
    variable is set to a non-empty string; [_request] sends exactly this
    request. *)
Theorem request_headers `{PyLib} (env : environ) (c : call) (send : client) :
  let cm := Math.load env in
  let cp := Petstore.load env in
  req_headers (wire_request (Math._headers cm) cm c) =
    [("Content-Type", "application/json"); ("Accept", "application/json")] ++
    (match assoc_get env "BASIC_MATH_API_API_KEY" with
     | Some k => if bool_decide (k = "") then [] else [("Authorization", "Bearer " +:+ k)]
     | None => []
     end) ∧
  req_headers (wire_request (Petstore._headers cp) cp c) =
    [("Content-Type", "application/json"); ("Accept", "application/json")] ++
    (match assoc_get env "PETSTORE_API_API_KEY" with
     | Some k => if bool_decide (k = "") then [] else [("X-API-Key", k)]
     | None => []
     end) ∧
  Math._request cm send c =
    Math._request cm (fun _ => send (wire_request (Math._headers cm) cm c)) c ∧
  Petstore._request cp send c =
    Petstore._request cp (fun _ => send (wire_request (Petstore._headers cp) cp c)) c.
Proof.
  cbn zeta. split; [|split; [|split; reflexivity]].
  - unfold Math._headers, Math.load, getenv; simpl.
    destruct (assoc_get env "BASIC_MATH_API_API_KEY"); reflexivity.
  - unfold Petstore._headers, Petstore.load, getenv; simpl.
    destruct (assoc_get env "PETSTORE_API_API_KEY"); reflexivity.
Qed.

(** Claim C8 (as stated: the variables are named after the server name):
    the math adapter registers as ["math-api"], but setting
    [MATH_API_BASE_URL] leaves its base URL at the default: its variables are
    named [BASIC_MATH_API_*]. *)
Lemma env_names_not_server_name :
  server_env_prefix Math.server_name = "MATH_API" ∧
  BASE_URL (Math.load [(server_env_prefix Math.server_name +:+ "_BASE_URL",
                        "http://10.0.0.1")]) = "http://127.0.0.1:8001" ∧
  BASE_URL (Math.load [("BASIC_MATH_API_BASE_URL", "http://10.0.0.1")])
    = "http://10.0.0.1".
Proof. split; [|split]; reflexivity. Qed.

(** Claim C8 (amended): each adapter reads its configuration from the
    environment it is run in: the math adapter from [BASIC_MATH_API_BASE_URL]
    (default: the recorded base URL) and [BASIC_MATH_API_API_KEY] (default
    [""]), the petstore adapter from [PETSTORE_API_BASE_URL] (default
    ["https://petstore.example.com/api/v1"]) and [PETSTORE_API_API_KEY]
    (default [""]). *)
Theorem adapter_env_config (env : environ) :
  Math.load env =
    {| BASE_URL := default math_spec_base_url (assoc_get env "BASIC_MATH_API_BASE_URL");
       API_KEY := default "" (assoc_get env "BASIC_MATH_API_API_KEY") |} ∧
  Petstore.load env =
    {| BASE_URL := default "https://petstore.example.com/api/v1"
                     (assoc_get env "PETSTORE_API_BASE_URL");
       API_KEY := default "" (assoc_get env "PETSTORE_API_API_KEY") |}.
Proof. split; reflexivity. Qed.

(** Claim C6: on a 2xx response both adapters return
    [json.dumps(resp.json(), indent=2)] when the body is JSON and the raw
    text otherwise (a response exists only once the client was created,
    hence [None] for the petstore client's creation). *)
Theorem success_body_formatted `{PyLib} (cfg : config) (send : client) (c : call)
    (resp : response)
    (Hm : send (wire_request (Math._headers cfg) cfg c) = Ok resp)
    (Hp : send (wire_request (Petstore._headers cfg) cfg c) = Ok resp)
    (H2xx : 200 <= status_code resp < 300) :
  let expected :=
    match resp_json (text resp) with
    | Some d => json_dumps (Some 2%nat) d
    | None => text resp
    end in
  Math._request cfg send c = Ok expected ∧ Petstore._request cfg send c None = Ok expected.
Proof.
  assert (is_success resp = true) as Hs by (unfold is_success; by apply bool_decide_eq_true).
  unfold Math._request, Petstore._request. rewrite Hm, Hp, Hs. done.
Qed.

Lemma success_body_formatted_witness :
  let resp := {| status_code := 200; text := "{}" |} in
  let cfg := Math.load [] in
  let c := {| c_method := "GET"; c_path := "/health"; c_params := None; c_body := None |} in
  constant_client resp (wire_request (Math._headers cfg) cfg c) = Ok resp ∧
  constant_client resp (wire_request (Petstore._headers cfg) cfg c) = Ok resp ∧
  (200 <= status_code resp < 300) ∧
  @Math._request demo_lib cfg (constant_client resp) c = Ok "{\n}" ∧
  @Petstore._request demo_lib cfg (constant_client resp) c None = Ok "{\n}".
Proof.
  cbn zeta. split; [reflexivity|split; [reflexivity|split; [simpl; lia|]]].
  assert (Hb : 200 <= 200 < 300) by lia.
  exact (@success_body_formatted demo_lib _ (constant_client _) _
           {| status_code := 200; text := "{}" |} eq_refl eq_refl Hb).
Defined.

(** Claim C10 (as stated: the petstore [_request] never propagates an
    exception): an [Exception] raised while creating the client, such as
    the [ValueError] for [HTTPS_PROXY=ftp://proxy:21], is raised before the
    [try] and propagates out of [_request]; so does a cancellation
    ([asyncio.CancelledError], a [BaseException]) raised by the request,
    which [except Exception] does not catch. *)
Lemma petstore_request_cancelled :
  let c := {| c_method := "DELETE"; c_path := "/pets/1"; c_params := None;
              c_body := None |} in
  let proxy_error := OtherException "Unknown scheme for proxy URL" in
  is_Exception proxy_error = true ∧
  @Petstore._request demo_lib (Petstore.load [])
    (constant_client {| status_code := 200; text := "{}" |}) c (Some proxy_error)
  = Raise proxy_error ∧
  @Petstore._request demo_lib (Petstore.load []) (fun _ => Raise CancelledError) c None
  = Raise CancelledError.
Proof. split; [|split]; reflexivity. Qed.

(** Claim C10 (amended): once the client is created, when the request
    raises only [Exception]s, the petstore [_request] returns a string: on
    a non-2xx status a JSON object with ["error"] and ["status"] (the status
    code), on any other [Exception] a JSON object with ["error"]; an
    exception raised while creating the client propagates; the math
    [_request] raises [HTTPStatusError] on a non-2xx status. *)
Theorem petstore_request_total `{PyLib} (cfg : config) (send : client) (c : call)
    (Hexc : ∀ e, send (wire_request (Petstore._headers cfg) cfg c) = Raise e →
                 is_Exception e = true) :
  (∃ s, Petstore._request cfg send c None = Ok s) ∧
  (∀ resp, send (wire_request (Petstore._headers cfg) cfg c) = Ok resp →
     is_success resp = false →
     Petstore._request cfg send c None =
       Ok (json_dumps None (JObj [("error", JStr (str_exn (HTTPStatusError (status_code resp))));
                                  ("status", JInt (status_code resp))]))) ∧
  (∀ e, send (wire_request (Petstore._headers cfg) cfg c) = Raise e →
     ∃ fields, Petstore._request cfg send c None =
       Ok (json_dumps None (JObj (("error", JStr (str_exn e)) :: fields)))) ∧
  (∀ e, Petstore._request cfg send c (Some e) = Raise e) ∧
  (∀ resp, send (wire_request (Math._headers cfg) cfg c) = Ok resp →
     is_success resp = false →
     Math._request cfg send c = Raise (HTTPStatusError (status_code resp))).
Proof.
  unfold Petstore._request, Math._request.
  split; [|split; [|split; [|split]]].
  - destruct (send _) as [resp|e] eqn:Hs.
    + destruct (is_success resp); [by eexists|]. simpl. by eexists.
    + specialize (Hexc e eq_refl). destruct e; simpl in *; try discriminate; by eexists.
  - intros resp -> ->. reflexivity.
  - intros e Hs. specialize (Hexc e Hs). rewrite Hs.
    destruct e; simpl in *; try discriminate; eexists; reflexivity.
  - reflexivity.
  - intros resp -> ->. reflexivity.
Qed.

Lemma petstore_request_total_witness :
  let cfg := Petstore.load [] in
  let c := {| c_method := "GET"; c_path := "/pets"; c_params := None; c_body := None |} in
  let send := constant_client {| status_code := 404; text := "not found" |} in
  (∀ e, send (wire_request (Petstore._headers cfg) cfg c) = Raise e → is_Exception e = true) ∧
  (∃ s, @Petstore._request demo_lib cfg send c None = Ok s).
Proof.
  cbn zeta.
  assert (Hx : ∀ e, constant_client {| status_code := 404; text := "not found" |}
                 (wire_request (Petstore._headers (Petstore.load []))
                    (Petstore.load [])
                    {| c_method := "GET"; c_path := "/pets"; c_params := None;
                       c_body := None |}) = Raise e → is_Exception e = true)
    by (intros e He; discriminate He).
  split; [exact Hx|].
  exact (proj1 (@petstore_request_total demo_lib _ _ _ Hx)).
Defined.

(** Sample arguments of the binary math tools. *)
Definition ab_args : kwargs := [("a", PyInt 5); ("b", PyInt 3)].

(** Claim C1 (code_bug, evaluated at [subtract_numbers]): the generated
    math adapter's [subtract_numbers] issues a POST, but its declared
    description carries no marker, so the adapter marks it read; its
    sibling [add_numbers], also a POST, is marked write. *)
Theorem subtract_numbers_post_marked_read :
  ∃ t a, find_tool Math.tools "subtract_numbers" = Some t ∧
    find_tool Math.tools "add_numbers" = Some a ∧
    issues t ab_args "POST" ∧ marker_safety (tool_description t) = READ ∧
    issues a ab_args "POST" ∧ marker_safety (tool_description a) = WRITE.
Proof.
  eexists _, _. split; [reflexivity|]. split; [reflexivity|].
  split; [eexists; split; reflexivity|]. split; [reflexivity|].
  split; [eexists; split; reflexivity|]. reflexivity.
Qed.

(** Claim C2 (code_bug, evaluated at [divide_numbers]): the generated math
    adapter's [divide_numbers] issues a POST, yet its declared description
    ends with neither the write marker nor the destructive marker, while
    [add_numbers] ends with the write marker. *)
Theorem divide_numbers_description_unmarked :
  ∃ t a, find_tool Math.tools "divide_numbers" = Some t ∧
    find_tool Math.tools "add_numbers" = Some a ∧
    issues t ab_args "POST" ∧
    ends_with (tool_description t) write_marker = false ∧
    ends_with (tool_description t) destructive_marker = false ∧
    ends_with (tool_description a) write_marker = true.
Proof.
  eexists _, _. split; [reflexivity|]. split; [reflexivity|].
  split; [eexists; split; reflexivity|]. split; [reflexivity|].
  split; reflexivity.
Qed.

(** Claim C3 (code_bug): mining the math document by the rules of the spec
    gives the five tools with the first four write and [health_check] read,
    and the adapter registers exactly these five names; but the adapter
    generated from that document marks only [add_numbers] write, and its
    generated test dry-runs [divide_numbers], [multiply_numbers] and
    [subtract_numbers] among the read-only tools. *)
Theorem math_adapter_classification_divergence :
  name <$> mine_tools math_doc =
    ["add_numbers"; "subtract_numbers"; "multiply_numbers"; "divide_numbers";
     "health_check"] ∧
  safety <$> mine_tools math_doc = [WRITE; WRITE; WRITE; WRITE; READ] ∧
  tool_name <$> Math.tools =
    ["add_numbers"; "divide_numbers"; "health_check"; "multiply_numbers";
     "subtract_numbers"] ∧
  (fun t => marker_safety (tool_description t)) <$> Math.tools =
    [WRITE; READ; READ; READ; READ] ∧
  Math.test_read_tools =
    ["divide_numbers"; "health_check"; "multiply_numbers"; "subtract_numbers"].
Proof. repeat split; vm_compute; reflexivity. Qed.

Lemma string_app_empty_r (s : string) : s +:+ "" = s.
Proof.
  induction s as [|c s IH]; [reflexivity|].
  change (String c (s +:+ "") = String c s). by rewrite IH.
Qed.

(** Case analysis on the arguments a stub looks at, then normalisation of
    the built request. *)
Ltac solve_stub :=
  unfold spec_request, wire_request, kw_opt; simpl;
  repeat (match goal with
          | |- context [kw_opt ?kw ?n] => unfold kw_opt; simpl
          | H : kw_get ?kw ?n = _ |- context [kw_get ?kw ?n] => rewrite H; simpl
          | |- context [match kw_get ?kw ?n with _ => _ end] =>
              destruct (kw_get kw n) eqn:?; simpl
          | |- context [kw_get ?kw ?n ≫= _] => destruct (kw_get kw n) eqn:?; simpl
          | |- context [is_none (default PyNone (kw_get ?kw ?n))] =>
              destruct (kw_get kw n) eqn:?; simpl
          | |- context [is_none ?v] => is_var v; destruct (is_none v) eqn:?; simpl
          end);
  unfold opt_field;
  repeat match goal with H : is_none _ = _ |- _ => rewrite H; clear H end;
  repeat rewrite string_app_empty_r; repeat rewrite app_nil_r;
  repeat rewrite <- app_assoc; try reflexivity.

(** Claim C5 (as stated: every stub places every argument by its
    location): [search_pets] called with a [petId] and a [species] filter
    fetches [/pets/1] with no query string, dropping [species], which it
    sends as a query parameter when no [petId] is given. *)
Lemma search_pets_drops_filter :
  @Petstore.search_pets demo_lib [("petId", PyInt 1); ("species", PyStr "dog")] =
    Some {| c_method := "GET"; c_path := "/pets/1"; c_params := None; c_body := None |} ∧
  @Petstore.search_pets demo_lib [("species", PyStr "dog")] =
    Some {| c_method := "GET"; c_path := "/pets";
            c_params := Some [("species", PyStr "dog")]; c_body := None |}.
Proof. split; reflexivity. Qed.

(** Claim C5 (amended): every single-endpoint stub sends exactly the
    request of its endpoint (path parameters substituted, query parameters
    in the query string, body parameters in the JSON body, against
    [BASE_URL] followed by the path); the merged [search_owners] and
    [search_pets] stubs first choose an endpoint from the arguments given
    (the id: the by-id endpoint; [q]: [/pets/search]; otherwise the list
    endpoint) and send exactly that endpoint's request, ignoring the other
    arguments. *)
Theorem stubs_build_requests `{PyLib} (h : list (string * string)) (cfg : config)
    (kw : kwargs) :
  Forall (fun sd => wire_request h cfg <$> sd.1 kw = spec_request h cfg sd.2 kw)
    [(Math.add_numbers, binary_desc "/add"); (Math.divide_numbers, binary_desc "/divide");
     (Math.health_check, health_desc); (Math.multiply_numbers, binary_desc "/multiply");
     (Math.subtract_numbers, binary_desc "/subtract");
     (Petstore.adoptpet, adopt_desc); (Petstore.createowner, createowner_desc);
     (Petstore.createpet, createpet_desc);
     (Petstore.deleteowner, by_id_desc "DELETE" "/owners/" "ownerId");
     (Petstore.deletepet, by_id_desc "DELETE" "/pets/" "petId");
     (Petstore.updatepet, updatepet_desc)] ∧
  wire_request h cfg <$> Petstore.search_owners kw =
    spec_request h cfg
      (if is_none (kw_opt kw "ownerId") then list_owners_desc
       else by_id_desc "GET" "/owners/" "ownerId") kw ∧
  wire_request h cfg <$> Petstore.search_pets kw =
    spec_request h cfg
      (if is_none (kw_opt kw "petId") then
         if is_none (kw_opt kw "q") then list_pets_desc else search_pets_desc
       else by_id_desc "GET" "/pets/" "petId") kw.
Proof.
  split; [|split].
  - repeat constructor; simpl;
      unfold Math.add_numbers, Math.divide_numbers, Math.health_check,
        Math.multiply_numbers, Math.subtract_numbers, Petstore.adoptpet,
        Petstore.createowner, Petstore.createpet, Petstore.deleteowner,
        Petstore.deletepet, Petstore.updatepet; solve_stub.
  - unfold Petstore.search_owners. solve_stub.
  - unfold Petstore.search_pets. solve_stub.
Qed.

(** Claim C7: with a source given, [inspect] ingests it, mines the tools and
    applies the default policy, then reports every surviving tool (in JSON:
    name, description, safety value and each parameter's name, type and
    required flag; in text: the safety icon, which determines the level, the
    name with each parameter's name, type and required marker, and the
    description); no run of [inspect] hands a catalog to CodeGenerator. *)
Theorem inspect_read_path `{PyLib} `{Collaborators} (spec url : option string)
    (json_output : bool) (src : string) (Hsrc : source_of spec url = Some src) :
  let s := ingest src in
  let ts := apply_safety default_policy (mine_tools s) in
  inspect_cmd spec url json_output =
    [EvIngest src; EvMine; EvApplySafety None] ++
    (if json_output then [EvEcho (json_dumps (Some 2%nat) (inspect_json s ts))]
     else EvEcho <$> (report_header s ts ++ mjoin (tool_lines <$> ts))) ∧
  ("tools", JArr (tool_report <$> ts)) ∈
    (match inspect_json s ts with JObj f => f | _ => [] end) ∧
  (∀ t, t ∈ ts → ∀ l, l ∈ tool_lines t → EvEcho l ∈ inspect_cmd spec url false) ∧
  (∀ a b, safety_icon a = safety_icon b → a = b) ∧
  (∀ spec' url' jo ts', EvGenerate ts' ∉ inspect_cmd spec' url' jo).
Proof.
  cbn zeta. split; [|split; [|split; [|split]]].
  - unfold inspect_cmd. rewrite Hsrc. reflexivity.
  - simpl. set_solver.
  - intros t Ht l Hl. unfold inspect_cmd. rewrite Hsrc.
    apply elem_of_app. right. apply list_elem_of_fmap_2.
    apply elem_of_app. right. apply list_elem_of_join.
    exists (tool_lines t). split; [done|]. by apply list_elem_of_fmap_2.
  - by intros [] [].
  - intros spec' url' jo ts'. unfold inspect_cmd.
    destruct (source_of spec' url'); [|unfold no_source_error; set_solver].
    intros Hin. apply elem_of_app in Hin as [Hin|Hin]; [set_solver|].
    destruct jo.
    + set_solver.
    + apply list_elem_of_fmap in Hin as (? & ? & _). discriminate.
Qed.

Lemma inspect_read_path_witness :
  source_of (Some "math.yaml") None = Some "math.yaml" ∧
  @inspect_cmd demo_lib math_collaborators (Some "math.yaml") None true =
    [EvIngest "math.yaml"; EvMine; EvApplySafety None; EvEcho "{\n}"].
Proof.
  split; [reflexivity|].
  exact (proj1 (@inspect_read_path demo_lib math_collaborators (Some "math.yaml") None
                  true "math.yaml" eq_refl)).
Defined.

(** *** Name uniqueness of the miner *)

Section MinerNames.
Local Open Scope nat_scope.

Lemma lower_app (a b : string) : lower (a +:+ b) = lower a +:+ lower b.
Proof.
  induction a as [|c a IH]; [reflexivity|].
  change (String (ascii_lower c) (lower (a +:+ b)) =
          String (ascii_lower c) (lower a +:+ lower b)). by rewrite IH.
Qed.

Lemma ascii_lower_digit (k : N) : ascii_lower (pretty_N_char k) = pretty_N_char k.
Proof.
  unfold pretty_N_char.
  destruct k as [|p]; [reflexivity|].
  repeat (destruct p as [p|p|]; try reflexivity).
Qed.

Lemma lower_pretty_N_go (x : N) (s : string) :
  lower s = s → lower (pretty_N_go x s) = pretty_N_go x s.
Proof.
  revert s. induction (N.lt_wf_0 x) as [x _ IH]; intros s Hs.
  destruct (decide (x = 0%N)) as [->|Hx]; [by rewrite pretty_N_go_0|].
  rewrite pretty_N_go_step by lia. apply IH; [apply N.div_lt; lia|].
  change (String (ascii_lower (pretty_N_char (x `mod` 10))) (lower s) =
          String (pretty_N_char (x `mod` 10)) s).
  by rewrite ascii_lower_digit, Hs.
Qed.

Lemma lower_pretty_nat (n : nat) : lower (pretty n) = pretty n.
Proof.
  change (lower (pretty (N.of_nat n)) = pretty (N.of_nat n)).
  unfold pretty, pretty_N. case_decide; [reflexivity|].
  by apply lower_pretty_N_go.
Qed.

Lemma lower_suffixed (base : string) (n : nat) :
  lower (suffixed base n) = lower base +:+ "_" +:+ pretty n.
Proof.
  unfold suffixed. rewrite !lower_app, lower_pretty_nat. reflexivity.
Qed.

Lemma string_app_inj_l (a b c : string) : a +:+ b = a +:+ c → b = c.
Proof.
  induction a as [|x a IH]; [done|]. intros Heq. apply IH.
  change (String x (a +:+ b) = String x (a +:+ c)) in Heq. congruence.
Qed.

Lemma lower_suffixed_inj (base : string) (n m : nat) :
  lower (suffixed base n) = lower (suffixed base m) → n = m.
Proof.
  rewrite !lower_suffixed. intros Heq.
  apply string_app_inj_l in Heq. apply (string_app_inj_l "_") in Heq.
  by apply (inj pretty).
Qed.

Lemma fresh_from_taken (seen : list string) (base : string) (fuel : nat) :
  ∀ n, lower (fresh_from seen base n fuel) ∈ seen →
       ∀ k, k ≤ fuel → lower (suffixed base (n + k)) ∈ seen.
Proof.
  induction fuel as [|fuel IH]; intros n Hin k Hk; simpl in Hin.
  - assert (k = 0) as -> by lia. by rewrite Nat.add_0_r.
  - case_bool_decide as Hn; [|done].
    destruct k as [|k]; [by rewrite Nat.add_0_r|].
    replace (n + S k) with (S n + k) by lia. apply IH; [done|lia].
Qed.

Lemma fresh_name_fresh (seen : list string) (base : string) :
  lower (fresh_name seen base) ∉ seen.
Proof.
  unfold fresh_name. case_bool_decide as Hb; [|done]. intros Hin.
  pose proof (fresh_from_taken seen base (length seen) 2 Hin) as Hall.
  set (L := (fun k => lower (suffixed base (2 + k))) <$> seq 0 (S (length seen))).
  assert (NoDup L) as HL.
  { apply NoDup_fmap_2_strong; [|apply NoDup_seq].
    intros x y _ _ Hxy. apply lower_suffixed_inj in Hxy. lia. }
  assert (incl L seen) as Hincl.
  { intros x Hx. apply list_elem_of_In.
    apply list_elem_of_In, list_elem_of_fmap in Hx as (k & -> & Hk).
    apply elem_of_seq in Hk. apply Hall. lia. }
  apply NoDup_ListNoDup in HL.
  pose proof (NoDup_incl_length HL Hincl) as Hlen.
  unfold L in Hlen. rewrite length_fmap, length_seq in Hlen. lia.
Qed.

Lemma mine_go_names (seen : list string) (eps : list Endpoint) :
  NoDup (lower <$> (name <$> mine_go seen eps)) ∧
  ∀ t, t ∈ mine_go seen eps → lower (name t) ∉ seen.
Proof.
  revert seen. induction eps as [|ep eps IH]; intros seen; simpl.
  - split; [constructor|set_solver].
  - destruct (skipped ep); [apply IH|].
    destruct (IH (lower (fresh_name seen (base_name ep)) :: seen)) as [Hnd Hfr].
    split.
    + simpl. constructor; [|done]. intros Hin.
      apply list_elem_of_fmap in Hin as (n & Heq & Hn).
      apply list_elem_of_fmap in Hn as (t & -> & Ht).
      apply (Hfr t Ht). rewrite <- Heq. by left.
    + intros t Ht. apply elem_of_cons in Ht as [->|Ht].
      * apply fresh_name_fresh.
      * intros Hin. apply (Hfr t Ht). by right.
Qed.

Lemma sublist_fmap_mono {A B} (f : A → B) (l1 l2 : list A) :
  l1 `sublist_of` l2 → (f <$> l1) `sublist_of` (f <$> l2).
Proof. induction 1; simpl; by constructor. Qed.

Lemma apply_safety_sublist (p : SafetyPolicy) (ts : list ToolDefinition) :
  apply_safety p ts `sublist_of` ts.
Proof.
  unfold apply_safety.
  assert ((if block_destructive p
           then filter (fun t => safety t ≠ DESTRUCTIVE) ts else ts) `sublist_of` ts)
    as H1 by (destruct (block_destructive p); [apply sublist_filter|done]).
  set (t1 := if block_destructive p then _ else _) in *.
  assert ((if decide (allowlist p = []) then t1
           else filter (fun t => lower (name t) ∈ lower <$> allowlist p) t1)
            `sublist_of` t1) as H2 by (case_decide; [done|apply sublist_filter]).
  set (t2 := if decide (allowlist p = []) then _ else _) in *.
  assert (filter (fun t => name t ∉ denylist p) t2 `sublist_of` t2) as H3
    by apply sublist_filter.
  set (t3 := filter _ t2) in *.
  assert ((if decide (0 < max_tools p)%Z then take (Z.to_nat (max_tools p)) t3 else t3)
            `sublist_of` t3) as H4 by (case_decide; [apply sublist_take|done]).
  by rewrite H4, H3, H2, H1.
Qed.

End MinerNames.

(** Claim C4 (as stated: every catalog the pipeline produces has
    case-insensitively unique names): with [--use-k2], the enhancer may
    rewrite names within its contract (same number of tools, same
    parameters), and [generate] hands the enhanced catalog, after the
    policy, to CodeGenerator without checking names again: an enhancer that
    names every tool ["calculate"] makes [generate] emit five tools of the
    same name. *)
Lemma enhancer_duplicates_names :
  (∀ s ts, length (@enhance_tools_with_k2 collapsing_collaborators s ts) = length ts ∧
           params <$> @enhance_tools_with_k2 collapsing_collaborators s ts = params <$> ts) ∧
  ∃ ts, generated_catalogs
          (@generate_cmd collapsing_collaborators (Some "math.yaml") None true false 0
             None None) = [ts] ∧
        name <$> ts = ["calculate"; "calculate"; "calculate"; "calculate"; "calculate"] ∧
        ¬ ci_unique (name <$> ts).
Proof.
  split.
  - intros s ts. simpl. rewrite length_fmap, <- list_fmap_compose. done.
  - eexists. split; [reflexivity|]. split; [reflexivity|].
    unfold ci_unique. simpl. intros Hnd.
    apply NoDup_cons in Hnd as [Hnd _]. apply Hnd. left.
Qed.

(** Claim C4 (amended): the catalog ToolMiner produces has
    case-insensitively unique names, the policy keeps that, so every catalog
    [generate] hands to CodeGenerator without the enhancer has unique
    names; the two generated adapters register case-insensitively distinct
    names. *)
Theorem mined_names_unique `{PyLib} `{Collaborators} (s : APISpec) (p : SafetyPolicy)
    (spec url : option string) (bd : bool) (mt : Z) (al dl : option string) :
  ci_unique (name <$> mine_tools s) ∧
  ci_unique (name <$> apply_safety p (mine_tools s)) ∧
  (∀ ts, ts ∈ generated_catalogs (generate_cmd spec url false bd mt al dl) →
         ci_unique (name <$> ts)) ∧
  ci_unique (tool_name <$> Math.tools) ∧
  ci_unique (tool_name <$> Petstore.tools).
Proof.
  assert (∀ s' p', ci_unique (name <$> apply_safety p' (mine_tools s'))) as Hpol.
  { intros s' p'. unfold ci_unique.
    apply (sublist_NoDup _ (lower <$> (name <$> mine_tools s'))).
    - apply (mine_go_names []).
    - by apply sublist_fmap_mono, sublist_fmap_mono, apply_safety_sublist. }
  split; [apply (mine_go_names [])|]. split; [apply Hpol|]. split.
  - unfold generate_cmd. destruct (source_of spec url); simpl; [|set_solver].
    intros ts Hts. apply list_elem_of_singleton in Hts as ->. apply Hpol.
  - split; unfold ci_unique; simpl; apply NoDup_ListNoDup; repeat constructor;
      simpl; intuition discriminate.
Qed.

(* ------------------------------------------------------------------ *)
(** ** Further properties of the adapters and the CLI *)






Ltac elems_of Ht :=
  repeat (apply elem_of_cons in Ht as [->|Ht]); try (by apply elem_of_nil in Ht).



Lemma call_tool_iff (sigs : list (string * signature)) (t : tool) (sig : signature)
    (Hs : assoc_get sigs (tool_name t) = Some sig)
    (Hst : ∀ kw, is_Some (tool_stub t kw) ↔
                 Forall (fun p : string * bool => p.2 = true → is_Some (kw_get kw p.1)) sig)
    (kw : kwargs) :
  is_Some (call_tool sigs t kw) ↔
    Forall (fun kv : string * pyval => kv.1 ∈ sig.*1) kw ∧
    Forall (fun p : string * bool => p.2 = true → is_Some (kw_get kw p.1)) sig.
Proof.
  unfold call_tool. rewrite Hs. simpl. case_bool_decide as Hk.
  - rewrite Hst. tauto.
  - split; [intros [? Hx]; discriminate|tauto].
Qed.

(** Calling a tool of either adapter with keyword arguments
    succeeds (builds its request) exactly when every keyword names a
    parameter of its function and every required parameter is given;
    otherwise it is a [TypeError] and nothing is sent. *)
Theorem tool_call_accepts `{PyLib} :
  Forall (fun t => ∃ sig, assoc_get math_signatures (tool_name t) = Some sig ∧
    ∀ kw, is_Some (call_tool math_signatures t kw) ↔
      Forall (fun kv : string * pyval => kv.1 ∈ sig.*1) kw ∧
      Forall (fun p : string * bool => p.2 = true → is_Some (kw_get kw p.1)) sig)
    Math.tools ∧
  Forall (fun t => ∃ sig, assoc_get petstore_signatures (tool_name t) = Some sig ∧
    ∀ kw, is_Some (call_tool petstore_signatures t kw) ↔
      Forall (fun kv : string * pyval => kv.1 ∈ sig.*1) kw ∧
      Forall (fun p : string * bool => p.2 = true → is_Some (kw_get kw p.1)) sig)
    Petstore.tools.
Proof.
  split; apply Forall_forall; intros t Ht; elems_of Ht;
    (eexists; split; [reflexivity|]); intros kw0; (apply call_tool_iff; [reflexivity|]);
    clear kw0;
    intros kw; rewrite ?Forall_cons, ?Forall_nil; simpl;
    cbv [Math.add_numbers Math.divide_numbers Math.health_check Math.multiply_numbers
         Math.subtract_numbers Petstore.adoptpet Petstore.createowner Petstore.createpet
         Petstore.deleteowner Petstore.deletepet Petstore.search_owners
         Petstore.search_pets Petstore.updatepet];
    repeat match goal with |- context [kw_get kw ?n] => destruct (kw_get kw n) end;
    simpl; repeat case_match; rewrite ?is_Some_alt; simpl; intuition (try discriminate; eauto).
Qed.



Lemma string_length_app (a b : string) :
  String.length (a +:+ b) = (String.length a + String.length b)%nat.
Proof.
  induction a as [|x a IH]; [reflexivity|].
  change (S (String.length (a +:+ b)) = S (String.length a + String.length b)%nat).
  by rewrite IH.
Qed.

Lemma string_app_inj_r (a b c : string) : a +:+ c = b +:+ c → a = b.
Proof.
  revert b. induction a as [|x a IH]; intros [|y b] Heq.
  - done.
  - exfalso. apply (f_equal String.length) in Heq.
    change (String.length c = S (String.length (b +:+ c))) in Heq.
    rewrite string_length_app in Heq. lia.
  - exfalso. apply (f_equal String.length) in Heq.
    change (S (String.length (a +:+ c)) = String.length c) in Heq.
    rewrite string_length_app in Heq. lia.
  - change (String x (a +:+ c) = String y (b +:+ c)) in Heq.
    injection Heq as -> Heq. by rewrite (IH b Heq).
Qed.

(** The petstore stubs that address one resource by an integer id
    ([adoptpet], [deleteowner], [deletepet], [updatepet], and
    [search_owners] / [search_pets] when given an id) send two calls with
    different integer ids to different paths: one id never reaches the
    resource of another. *)
Theorem id_paths_injective `{PyLib} (stub : kwargs -> option call) (id : string)
    (kw1 kw2 : kwargs) (a b : Z) (c1 c2 : call)
    (Hstub : (stub, id) ∈ id_stubs)
    (Ha : kw_get kw1 id = Some (PyInt a)) (Hb : kw_get kw2 id = Some (PyInt b))
    (Hc1 : stub kw1 = Some c1) (Hc2 : stub kw2 = Some c2)
    (Hpath : c_path c1 = c_path c2) :
  a = b.
Proof.
  unfold id_stubs in Hstub.
  (repeat (apply elem_of_cons in Hstub as [Hstub|Hstub];
    [injection Hstub as -> ->|]); [..|by apply elem_of_nil in Hstub]).
  all: cbv [Petstore.adoptpet Petstore.deleteowner Petstore.deletepet Petstore.search_owners
       Petstore.search_pets Petstore.updatepet kw_opt] in Hc1, Hc2.
  all: rewrite Ha in Hc1.
  all: rewrite Hb in Hc2.
  all: simpl in Hc1, Hc2.
  all: repeat match goal with
    | H : kw_get ?k ?n ≫= _ = Some _ |- _ =>
        destruct (kw_get k n); [|discriminate H]; simpl in H
    end.
  all: injection Hc1 as <-; injection Hc2 as <-; simpl in Hpath.
  all: apply (inj (String.app _)) in Hpath.
  all: try apply string_app_inj_r in Hpath.
  all: by apply (inj pretty) in Hpath.
Qed.


Lemma id_paths_injective_witness :
  (@Petstore.deletepet demo_lib, "petId") ∈ @id_stubs demo_lib ∧
  kw_get [("petId", PyInt 7)] "petId" = Some (PyInt 7) ∧
  @Petstore.deletepet demo_lib [("petId", PyInt 7)] =
    Some {| c_method := "DELETE"; c_path := "/pets/7"; c_params := None; c_body := None |} ∧
  7 = 7.
Proof.
  assert (Hm : (@Petstore.deletepet demo_lib, "petId") ∈ @id_stubs demo_lib)
    by (unfold id_stubs; right; right; left).
  split; [exact Hm|]. split; [reflexivity|]. split; [reflexivity|].
  exact (@id_paths_injective demo_lib _ _ [("petId", PyInt 7)] [("petId", PyInt 7)] 7 7
           _ _ Hm eq_refl eq_refl eq_refl eq_refl eq_refl).
Defined.

(** Every request a stub of either adapter builds has a JSON body
    exactly when its method is POST or PUT, and [json=body if body else
    None] never drops the body a stub built (it is never empty); only GET
    requests carry query parameters. *)
Theorem stub_request_shape `{PyLib} (t : tool) (kw : kwargs) (c : call)
    (Ht : t ∈ Math.tools ++ Petstore.tools) (Hc : tool_stub t kw = Some c) :
  json_arg (c_body c) = c_body c ∧
  (is_Some (c_body c) ↔ c_method c = "POST" ∨ c_method c = "PUT") ∧
  (c_method c ≠ "GET" → c_params c = None).
Proof.
  elems_of Ht; simpl in Hc;
  cbv [Math.add_numbers Math.divide_numbers Math.health_check Math.multiply_numbers
       Math.subtract_numbers Petstore.adoptpet Petstore.createowner Petstore.createpet
       Petstore.deleteowner Petstore.deletepet Petstore.search_owners
       Petstore.search_pets Petstore.updatepet] in Hc;
  repeat match goal with
    | H : kw_get ?k ?n ≫= _ = Some _ |- _ =>
        destruct (kw_get k n); [|discriminate H]; simpl in H
    end;
  repeat match goal with
    | H : (if ?b then _ else _) = Some _ |- _ => destruct b
    end;
  injection Hc as <-; simpl; rewrite ?is_Some_alt; simpl;
  (split; [reflexivity|]); intuition (try discriminate; eauto).
Qed.

Lemma stub_request_shape_witness :
  let t := {| tool_name := "add_numbers";
              tool_description := "Calculates the sum of two numbers. [WRITES DATA]";
              tool_stub := Math.add_numbers |} in
  let c := {| c_method := "POST"; c_path := "/add"; c_params := None;
              c_body := Some [("a", PyInt 5); ("b", PyInt 3)] |} in
  t ∈ Math.tools ++ @Petstore.tools demo_lib ∧
  tool_stub t [("a", PyInt 5); ("b", PyInt 3)] = Some c ∧
  json_arg (c_body c) = c_body c.
Proof.
  cbn zeta.
  assert (Hin : {| tool_name := "add_numbers";
                   tool_description := "Calculates the sum of two numbers. [WRITES DATA]";
                   tool_stub := Math.add_numbers |} ∈ Math.tools ++ @Petstore.tools demo_lib)
    by (simpl; left).
  split; [exact Hin|]. split; [reflexivity|].
  exact (proj1 (@stub_request_shape demo_lib _ [("a", PyInt 5); ("b", PyInt 3)] _
                  Hin eq_refl)).
Defined.

(** When the upstream answers the two adapters' requests alike (as
    it must when no API key is set, for then both send the same headers),
    the petstore [_request] is the math [_request] with its exceptions
    handed to the petstore [except] clauses: the same string on success,
    [HTTPStatusError] and other [Exception]s turned into JSON error strings,
    anything else raised unchanged; an exception creating the petstore
    client is raised before the [try] and propagates. *)
Theorem petstore_request_catches `{PyLib} (cfg : config) (send : client) (c : call)
    (Hsame : send (wire_request (Math._headers cfg) cfg c) =
             send (wire_request (Petstore._headers cfg) cfg c)) :
  Petstore._request cfg send c None =
    match Math._request cfg send c with
    | Ok s => Ok s
    | Raise e => Petstore.handle e
    end ∧
  (∀ e, Petstore._request cfg send c (Some e) = Raise e) ∧
  (API_KEY cfg = "" → Math._headers cfg = Petstore._headers cfg).
Proof.
  split; [|split].
  - unfold Petstore._request, Math._request. rewrite <- Hsame.
    destruct (send _) as [resp|e]; [|reflexivity].
    by destruct (is_success resp).
  - reflexivity.
  - intros Hk. unfold Math._headers, Petstore._headers. by rewrite Hk.
Qed.

Lemma petstore_request_catches_witness :
  let cfg := {| BASE_URL := "http://localhost"; API_KEY := "" |} in
  let c := {| c_method := "GET"; c_path := "/pets"; c_params := None; c_body := None |} in
  let send := fun r : request =>
    if bool_decide (req_url r = "http://localhost/pets")
    then Ok {| status_code := 503; text := "down" |} else Raise (OtherException "no route") in
  send (wire_request (Math._headers cfg) cfg c) =
    send (wire_request (Petstore._headers cfg) cfg c) ∧
  @Petstore._request demo_lib cfg send c None = Ok "{}".
Proof.
  intros cfg c send.
  assert (Hs : send (wire_request (Math._headers cfg) cfg c) =
               send (wire_request (Petstore._headers cfg) cfg c)) by reflexivity.
  split; [exact Hs|].
  rewrite (proj1 (@petstore_request_catches demo_lib cfg send c Hs)). reflexivity.
Defined.

(** [inspect] indexes its icon dict with [t.safety.value]; the
    lookup never raises [KeyError], and the three safety levels get three
    different icons. *)
Theorem icon_lookup_total :
  (∀ s, assoc_get icon_table (safety_value s) = Some (safety_icon s)) ∧
  NoDup (safety_icon <$> [READ; WRITE; DESTRUCTIVE]).
Proof.
  split.
  - intros []; reflexivity.
  - apply (bool_decide_unpack _). vm_compute. exact I.
Qed.

(** Both commands stop with the message and exit status 1, before
    ingesting anything, exactly when [--spec] is not given and [--url] is
    not given as a non-empty string ([--spec ""] names no path: click
    rejects it first).  A [--spec] naming no existing path stops both
    commands with click's usage error, exit status 2, whatever [--url] is;
    so does a [generate] without [--output]. *)
Theorem cli_requires_source `{PyLib} `{Collaborators} (path_exists : string → bool)
    (Hempty : path_exists "" = false) (spec url : option string) (out : string)
    (json_output use_k2 bd : bool) (mt : Z) (al dl : option string) :
  (click_inspect path_exists spec url json_output = no_source_error ↔
     spec = None ∧ truthy url = false) ∧
  (click_generate path_exists spec url (Some out) use_k2 bd mt al dl = no_source_error ↔
     spec = None ∧ truthy url = false) ∧
  (∀ s, spec = Some s → path_exists s = false →
     click_inspect path_exists spec url json_output = usage_error ∧
     click_generate path_exists spec url (Some out) use_k2 bd mt al dl = usage_error) ∧
  click_generate path_exists spec url None use_k2 bd mt al dl = usage_error.
Proof.
  assert (Hsrc : ∀ s, spec_path_ok path_exists s = true →
                 (source_of s url = None ↔ s = None ∧ truthy url = false)).
  { intros s Hok. unfold source_of.
    destruct url as [u|], s as [s|]; simpl in *;
      repeat case_bool_decide; simpl; try (subst; congruence); intuition congruence. }
  unfold click_inspect, click_generate.
  split; [|split; [|split]].
  - destruct (spec_path_ok path_exists spec) eqn:Hok.
    + rewrite <- (Hsrc spec Hok). unfold inspect_cmd.
      destruct (source_of spec url); [|tauto].
      split; [intros Hx; discriminate Hx|discriminate].
    + split; [intros Hx; discriminate Hx|intros [-> _]; discriminate].
  - destruct (spec_path_ok path_exists spec) eqn:Hok; simpl.
    + rewrite <- (Hsrc spec Hok). unfold generate_cmd.
      destruct (source_of spec url); [|tauto].
      split; [intros Hx; discriminate Hx|discriminate].
    + split; [intros Hx; discriminate Hx|intros [-> _]; discriminate].
  - intros s -> Hs. simpl. rewrite Hs. split; reflexivity.
  - rewrite andb_false_r. reflexivity.
Qed.

Lemma cli_requires_source_witness :
  let fs := fun s => bool_decide (s = "math.yaml") in
  fs "" = false ∧
  @click_inspect demo_lib math_collaborators fs None (Some "") false = no_source_error ∧
  @click_inspect demo_lib math_collaborators fs (Some "") (Some "openapi.yaml") false
    = usage_error.
Proof.
  intros fs.
  assert (He : fs "" = false) by reflexivity.
  split; [exact He|split].
  - apply (proj2 (proj1 (@cli_requires_source demo_lib math_collaborators fs He None
             (Some "") "out" false false false 0 None None))).
    split; reflexivity.
  - exact (proj1 (proj1 (proj2 (proj2 (@cli_requires_source demo_lib math_collaborators
             fs He (Some "") (Some "openapi.yaml") "out" false false false 0 None None)))
             "" eq_refl He)).
Defined.









(** The generated tests agree with the adapters they test: the
    sorted names of the math adapter's tools are the list [test_list_tools]
    expects, the petstore adapter registers the 8 tools its test expects,
    every tool the math dry run calls is registered, the petstore
    [createpet] function rejects with a [TypeError] every call that lacks
    its required [name] or passes a keyword it does not declare (so the
    test's call with [{"invalid": "params"}] raises, as the test expects),
    and its [search_pets] call with no arguments sends [GET BASE_URL/pets]
    with no query and no body. *)
Theorem generated_tests_consistent `{PyLib} (cfg : config) (hdrs : list (string * string)) :
  py_sorted (tool_name <$> Math.tools) = math_test_expected ∧
  length Petstore.tools = petstore_test_expected_count ∧
  Forall (fun n => n ∈ tool_name <$> Math.tools) Math.test_read_tools ∧
  (∃ t, find_tool Petstore.tools "createpet" = Some t ∧
        ∀ kw, (kw_get kw "name" = None ∨
               ∃ kv, kv ∈ kw ∧
                     kv.1 ∉ ["name"; "species"; "id"; "breed"; "age"; "status"]) →
              call_tool petstore_signatures t kw = None) ∧
  (∃ t, find_tool Petstore.tools "search_pets" = Some t ∧
        wire_request hdrs cfg <$> call_tool petstore_signatures t [] =
          Some {| req_method := "GET"; req_url := BASE_URL cfg +:+ "/pets";
                  req_headers := hdrs; req_query := []; req_json := None |}).
Proof.
  split; [vm_compute; reflexivity|]. split; [reflexivity|].
  split; [apply (bool_decide_unpack _); vm_compute; exact I|].
  split; eexists; split; try reflexivity.
  intros kw Hkw. unfold call_tool. simpl.
  case_bool_decide as HF; [|reflexivity].
  destruct Hkw as [Hn|(kv & Hkv & Hk)].
  - unfold Petstore.createpet. rewrite Hn. reflexivity.
  - exfalso. rewrite Forall_forall in HF. exact (Hk (HF kv Hkv)).
Qed.

(** Each stub issues one fixed HTTP method whatever its arguments
    (the merged search stubs issue GET on every branch); in particular only
    [deleteowner] and [deletepet] ever issue a DELETE. *)
Theorem stub_method_fixed `{PyLib} (t : tool) (kw : kwargs) (c : call)
    (Ht : t ∈ Math.tools ++ Petstore.tools) (Hc : tool_stub t kw = Some c) :
  assoc_get stub_methods (tool_name t) = Some (c_method c) ∧
  (c_method c = "DELETE" → tool_name t = "deleteowner" ∨ tool_name t = "deletepet").
Proof.
  elems_of Ht; simpl in Hc |- *;
  cbv [Math.add_numbers Math.divide_numbers Math.health_check Math.multiply_numbers
       Math.subtract_numbers Petstore.adoptpet Petstore.createowner Petstore.createpet
       Petstore.deleteowner Petstore.deletepet Petstore.search_owners
       Petstore.search_pets Petstore.updatepet] in Hc;
  repeat match goal with
    | H : kw_get ?k ?n ≫= _ = Some _ |- _ =>
        destruct (kw_get k n); [|discriminate H]; simpl in H
    end;
  repeat match goal with
    | H : (if ?b then _ else _) = Some _ |- _ => destruct b
    end;
  injection Hc as <-; simpl; (split; [reflexivity|]); intros Hm;
  first [discriminate Hm | by left | by right].
Qed.

Lemma stub_method_fixed_witness :
  let t := {| tool_name := "deletepet";
              tool_description := "Delete a pet [DESTRUCTIVE — may permanently delete data]";
              tool_stub := @Petstore.deletepet demo_lib |} in
  t ∈ Math.tools ++ @Petstore.tools demo_lib ∧
  tool_stub t [("petId", PyInt 4)] =
    Some {| c_method := "DELETE"; c_path := "/pets/4"; c_params := None; c_body := None |} ∧
  assoc_get stub_methods (tool_name t) = Some "DELETE".
Proof.
  intros t.
  assert (Hin : t ∈ Math.tools ++ @Petstore.tools demo_lib)
    by (simpl; do 9 right; left).
  split; [exact Hin|]. split; [reflexivity|].
  exact (proj1 (@stub_method_fixed demo_lib t [("petId", PyInt 4)] _ Hin eq_refl)).
Defined.
